(** * pyVerusClient: the request/response transform of [verus_client.py]

    A shallow embedding of [VerusResponseData] and [VerusClient]
    (construction, [_rpc_request], [_handle_response] and the catalogue
    entries built from them), followed by the properties of the
    specification that concern them.

    Conventions of the embedding.
    - A Python [str] is a Rocq [string]: a sequence of code points below
      256.  [lower], [repr] and the JSON encoder are given in full on
      that range.
    - A Python value that JSON can carry is a [value]; a [dict] is an
      insertion-ordered association list with string keys.  A [float]
      is kept by its [repr], which is all the client ever does with one.
    - Raising is the [Raise] branch of [result]; code that talks to the
      daemon runs in the monad [M], which threads the [world]: the
      requests posted so far and the daemon that answers them. *)

From Stdlib Require Import ZArith NArith List String Ascii Bool Lia.
From Stdlib Require Import DecimalString.
Import ListNotations.

Local Open Scope string_scope.
Local Open Scope Z_scope.

(** ** Python values *)

#[local] Set Warnings "-register-all".

Inductive value : Type :=
| VNone
| VBool (b : bool)
| VInt (n : Z)
| VFloat (float_repr : string)
| VStr (s : string)
| VList (items : list value)
| VDict (entries : list (string * value)).

(** A [dict] with string keys, in insertion order. *)
Definition dict : Type := list (string * value).

Inductive exn : Type :=
| ValueError (msg : string)
| TypeError (msg : string)
| NameError (msg : string)
| AttributeError (msg : string)
| Exception (msg : string)
| HTTPError (status_code : Z)
| ConnectionError (diagnostic : string)
| JSONDecodeError.

Inductive result (A : Type) : Type :=
| Ok (a : A)
| Raise (e : exn).

Arguments Ok {A} a.
Arguments Raise {A} e.

(** ** Dictionaries *)

Module Dict.

(** [d.get(k)], with [None] of [option] for a missing key. *)
Fixpoint get (k : string) (d : dict) : option value :=
  match d with
  | [] => None
  | (k', v) :: rest => if String.eqb k k' then Some v else get k rest
  end.

(** [d.get(k)] as Python gives it: [None] (the value) for a missing key. *)
Definition get_or_none (k : string) (d : dict) : value :=
  match get k d with
  | Some v => v
  | None => VNone
  end.

(** [d[k] = v]: the value is replaced where the key stands, a new key
    goes to the end. *)
Fixpoint set (k : string) (v : value) (d : dict) : dict :=
  match d with
  | [] => [(k, v)]
  | (k', v') :: rest =>
      if String.eqb k k' then (k', v) :: rest else (k', v') :: set k v rest
  end.

(** [d.update(entries)]. *)
Definition update (d entries : dict) : dict :=
  fold_left (fun acc kv => set (fst kv) (snd kv) acc) entries d.

Definition keys (d : dict) : list string := map fst d.

Definition mem (k : string) (d : dict) : bool :=
  match get k d with
  | Some _ => true
  | None => false
  end.

End Dict.

(** ** Text: [str.lower], [repr], [str] and [json.dumps] *)

Module Text.

Definition code (c : ascii) : N := N_of_ascii c.

Definition in_range (lo hi n : N) : bool := ((lo <=? n) && (n <=? hi))%N.

(** [str.lower] on one code point below 256: the ASCII capitals and
    the Latin-1 capitals (all of U+00C0..U+00DE but the sign U+00D7)
    move up by 32. *)
Definition lower_char (c : ascii) : ascii :=
  let n := code c in
  if in_range 65 90 n || (in_range 192 222 n && negb (n =? 215)%N)
  then ascii_of_N (n + 32)
  else c.

Fixpoint lower (s : string) : string :=
  match s with
  | EmptyString => EmptyString
  | String c rest => String (lower_char c) (lower rest)
  end.

Definition hex_digit (n : N) : ascii :=
  if (n <? 10)%N then ascii_of_N (48 + n) else ascii_of_N (87 + n).

Definition hex2 (n : N) : string :=
  String (hex_digit (n / 16)) (String (hex_digit (n mod 16)) EmptyString).

Definition char (n : N) : string := String (ascii_of_N n) EmptyString.

Definition dquote : string := char 34.
Definition backslash : string := char 92.

Fixpoint contains (c : ascii) (s : string) : bool :=
  match s with
  | EmptyString => false
  | String c' rest => Ascii.eqb c c' || contains c rest
  end.

Fixpoint concat_map (f : ascii -> string) (s : string) : string :=
  match s with
  | EmptyString => EmptyString
  | String c rest => f c ++ concat_map f rest
  end.

Fixpoint join (sep : string) (parts : list string) : string :=
  match parts with
  | [] => EmptyString
  | [p] => p
  | p :: rest => p ++ sep ++ join sep rest
  end.

(** [str(n)] and [repr(n)] of an [int]. *)
Definition str_int (n : Z) : string := NilZero.string_of_int (Z.to_int n).

(** [str.isprintable] on one code point below 256. *)
Definition printable (n : N) : bool :=
  in_range 32 126 n || (in_range 161 255 n && negb (n =? 173)%N).

(** One character of [repr(s)], [quote] being the quote chosen. *)
Definition repr_char (quote : ascii) (c : ascii) : string :=
  let n := code c in
  if Ascii.eqb c quote || (n =? 92)%N then backslash ++ char n
  else if (n =? 9)%N then backslash ++ "t"
  else if (n =? 10)%N then backslash ++ "n"
  else if (n =? 13)%N then backslash ++ "r"
  else if printable n then char n
  else backslash ++ "x" ++ hex2 n.

(** [repr(s)] of a [str]: single quotes, unless the text has a single
    quote and no double quote. *)
Definition repr_str (s : string) : string :=
  let quote :=
    if contains (ascii_of_N 39) s && negb (contains (ascii_of_N 34) s)
    then ascii_of_N 34 else ascii_of_N 39 in
  String quote (concat_map (repr_char quote) s ++ String quote EmptyString).

(** [repr(v)]. *)
Fixpoint repr (v : value) : string :=
  match v with
  | VNone => "None"
  | VBool true => "True"
  | VBool false => "False"
  | VInt n => str_int n
  | VFloat r => r
  | VStr s => repr_str s
  | VList items => "[" ++ join ", " (map repr items) ++ "]"
  | VDict entries =>
      "{" ++ join ", "
               (map (fun kv : string * value =>
                       let (k, x) := kv in repr_str k ++ ": " ++ repr x)
                    entries)
          ++ "}"
  end.

(** [str(v)], which is what an f-string field formats with: the text
    itself for a [str], [repr] for everything else. *)
Definition str (v : value) : string :=
  match v with
  | VStr s => s
  | _ => repr v
  end.

(** One character of a JSON string, as [json.dumps] writes it with
    [ensure_ascii] on. *)
Definition json_char (c : ascii) : string :=
  let n := code c in
  if (n =? 34)%N then backslash ++ dquote
  else if (n =? 92)%N then backslash ++ backslash
  else if (n =? 10)%N then backslash ++ "n"
  else if (n =? 13)%N then backslash ++ "r"
  else if (n =? 9)%N then backslash ++ "t"
  else if (n =? 12)%N then backslash ++ "f"
  else if (n =? 8)%N then backslash ++ "b"
  else if in_range 32 126 n then char n
  else backslash ++ "u00" ++ hex2 n.

Definition json_str (s : string) : string :=
  dquote ++ concat_map json_char s ++ dquote.

(** A [float] in JSON: its [repr], but for the three that JSON has no
    literal for. *)
Definition json_float (r : string) : string :=
  if String.eqb r "nan" then "NaN"
  else if String.eqb r "inf" then "Infinity"
  else if String.eqb r "-inf" then "-Infinity"
  else r.

(** [json.dumps(v)] with the default separators. *)
Fixpoint json_dumps (v : value) : string :=
  match v with
  | VNone => "null"
  | VBool true => "true"
  | VBool false => "false"
  | VInt n => str_int n
  | VFloat r => json_float r
  | VStr s => json_str s
  | VList items => "[" ++ join ", " (map json_dumps items) ++ "]"
  | VDict entries =>
      "{" ++ join ", "
               (map (fun kv : string * value =>
                       let (k, x) := kv in json_str k ++ ": " ++ json_dumps x)
                    entries)
          ++ "}"
  end.

End Text.


(** ** Raising and the world outside *)

Definition bind_result {A B : Type} (c : result A) (k : A -> result B) : result B :=
  match c with
  | Ok a => k a
  | Raise e => Raise e
  end.

Notation "'let?' x ':=' c 'in' k" := (bind_result c (fun x => k))
  (at level 10, x name, c at level 100, k at level 200).

Record http_request : Type := {
  req_url : string;
  req_auth : string * string;
  req_data : string;
  req_headers : list (string * string)
}.

(** What comes back for one POST: no HTTP exchange at all, or a status
    line with a body.  The body is kept by what [response.json()] makes
    of it: [None] when it is not JSON. *)
Inductive http_reply : Type :=
| NoReply (diagnostic : string)
| Reply (status_code : Z) (decoded : option value).

(** The world outside the client: every request posted so far, oldest
    first, and the daemon, which answers a request knowing the earlier
    ones. *)
Record world : Type := {
  posted : list http_request;
  daemon : list http_request -> http_request -> http_reply
}.

Definition M (A : Type) : Type := world -> result A * world.

Definition ret {A : Type} (a : A) : M A := fun net => (Ok a, net).

Definition raise {A : Type} (e : exn) : M A := fun net => (Raise e, net).

Definition bind {A B : Type} (c : M A) (k : A -> M B) : M B :=
  fun net =>
    match c net with
    | (Ok a, net') => k a net'
    | (Raise e, net') => (Raise e, net')
    end.

Definition lift {A : Type} (r : result A) : M A := fun net => (r, net).

Notation "'let*' x ':=' c 'in' k" := (bind c (fun x => k))
  (at level 10, x name, c at level 100, k at level 200).

(** The part of the [requests] library that the client calls. *)
Module requests.

Record Response : Type := {
  status_code : Z;
  decoded_body : option value
}.

(** [requests.post(url, auth=..., data=..., headers=...)]: one POST. *)
Definition post (url : string) (auth : string * string) (data : string)
    (headers : list (string * string)) : M Response :=
  fun net =>
    let req := {| req_url := url; req_auth := auth;
                  req_data := data; req_headers := headers |} in
    let net' := {| posted := (posted net ++ [req])%list; daemon := daemon net |} in
    match daemon net (posted net) req with
    | NoReply diagnostic => (Raise (ConnectionError diagnostic), net')
    | Reply sc body => (Ok {| status_code := sc; decoded_body := body |}, net')
    end.

(** [response.raise_for_status()]: statuses 400 to 599 raise. *)
Definition raise_for_status (r : Response) : result unit :=
  if (400 <=? status_code r) && (status_code r <? 600)
  then Raise (HTTPError (status_code r))
  else Ok tt.

(** [response.json()]. *)
Definition json (r : Response) : result value :=
  match decoded_body r with
  | Some v => Ok v
  | None => Raise JSONDecodeError
  end.

End requests.

Definition is_none (v : value) : bool :=
  match v with
  | VNone => true
  | _ => false
  end.

(** The truth value that [if v] and [x if v else y] test: [None], [False],
    zero, and the empty text, list and dictionary are false. *)
Definition truthy (v : value) : bool :=
  match v with
  | VNone => false
  | VBool b => b
  | VInt n => negb (n =? 0)
  | VFloat r => negb (String.eqb r "0.0" || String.eqb r "-0.0")
  | VStr s => negb (String.eqb s "")
  | VList items => match items with [] => false | _ => true end
  | VDict entries => match entries with [] => false | _ => true end
  end.

Definition type_name (v : value) : string :=
  match v with
  | VNone => "NoneType"
  | VBool _ => "bool"
  | VInt _ => "int"
  | VFloat _ => "float"
  | VStr _ => "str"
  | VList _ => "list"
  | VDict _ => "dict"
  end.

(** An argument with a default: [None] when the caller leaves it out. *)
Definition or_default (default : value) (arg : option value) : value :=
  match arg with
  | Some v => v
  | None => default
  end.

(** [l.append(x)], by the list that [l] names afterwards. *)
Definition append (l : list value) (x : value) : list value := (l ++ [x])%list.

(** Reading a name inside a method body.  The locals are the method's
    parameters; the module binds [json], [requests] and the two classes
    and nothing else, so any other name is unbound. *)
Definition load_name (locals : dict) (name : string) : result value :=
  match Dict.get name locals with
  | Some v => Ok v
  | None => Raise (NameError ("name '" ++ name ++ "' is not defined"))
  end.

(** ** [class VerusResponseData] *)

Module VerusResponseData.

(** An instance, by its [__dict__]. *)
Definition t : Type := dict.

(** The attribute [name] that the instance holds, if any.  Attribute
    access reads it for every name that the class leaves to the
    instance, which is every name but [__class__], [__dict__] and
    [__weakref__]. *)
Definition attr (data : t) (name : string) : option value :=
  Dict.get name data.

Definition setattr (data : t) (name : string) (v : value) : t :=
  Dict.set name v data.

Definition __init__ (entries : dict) : t :=
  let self := Dict.update [] entries in
  setattr self "response" VNone.

(** Calling the class with a dictionary unpacked into keywords.  The
    signature of [__init__] is [self] followed by a catch-all for
    keywords; the instance is bound to [self] already, so a keyword of
    that name cannot be bound (the text of the error is that of
    Python 3.10 and later). *)
Definition new (kwargs : dict) : result t :=
  if Dict.mem "self" kwargs
  then Raise (TypeError
         "VerusResponseData.__init__() got multiple values for argument 'self'")
  else Ok (__init__ kwargs).

(** [__repr__]: the class name, then [name=repr(value)] for each
    attribute in order. *)
Definition __repr__ (self : t) : string :=
  let contents :=
    Text.join ", "
      (map (fun kv : string * value =>
              let (k, v) := kv in k ++ "=" ++ Text.repr v) self) in
  "VerusResponseData" ++ "(" ++ contents ++ ")".

End VerusResponseData.

(** What a catalogue entry returns: a [VerusResponseData] or the bare
    result. *)
Inductive normalized : Type :=
| Data (data : VerusResponseData.t)
| Bare (res : value).

(** ** [class VerusClient] *)

Module VerusClient.

Record t : Type := {
  host : string;
  network : string;
  rpc_user : string;
  rpc_password : string;
  port : Z;
  native_currency : string;
  url : string
}.

Definition __init__ (host network rpc_user rpc_password : string) : result t :=
  let network := Text.lower network in
  let? resolved :=
    if String.eqb network "mainnet" then Ok (27486, "vrsc")
    else if String.eqb network "testnet" then Ok (18843, "vrsctest")
    else Raise (ValueError "Network must be 'mainnet' or 'testnet'") in
  let (port, native_currency) := resolved : Z * string in
  Ok {| host := host; network := network;
        rpc_user := rpc_user; rpc_password := rpc_password;
        port := port; native_currency := native_currency;
        url := "http://" ++ host ++ ":" ++ Text.str_int port ++ "/" |}.

(** Construction with the defaults of the signature for the arguments
    left out. *)
Definition construct (host network rpc_user rpc_password : option string)
    : result t :=
  let pick (default : string) (arg : option string) :=
    match arg with Some s => s | None => default end in
  __init__ (pick "127.0.0.1" host) (pick "mainnet" network)
           (pick "username" rpc_user) (pick "password" rpc_password).

Definition _rpc_request (self : t) (method : string) (params : list value)
    : M dict :=
  let payload :=
    [("jsonrpc", VStr "1.0");
     ("id", VStr "python-client");
     ("method", VStr method);
     ("params", VList params)] in
  let headers := [("content-type", "text/plain")] in
  let* response :=
    requests.post (url self) (rpc_user self, rpc_password self)
                  (Text.json_dumps (VDict payload)) headers in
  let* _ := lift (requests.raise_for_status response) in
  let* result := lift (requests.json response) in
  match result with
  | VDict result =>
      if negb (is_none (Dict.get_or_none "error" result))
      then raise (Exception
             ("RPC Error: " ++ Text.str (Dict.get_or_none "error" result)))
      else ret result
  | other =>
      raise (AttributeError
        ("'" ++ type_name other ++ "' object has no attribute 'get'"))
  end.

Definition _handle_response (self : t) (response : dict) : result normalized :=
  let res := Dict.get_or_none "result" response in
  match res with
  | VDict entries =>
      let? data := VerusResponseData.new entries in
      Ok (Data (VerusResponseData.setattr data "response" res))
  | _ => Ok (Bare res)
  end.

Definition getinfo (self : t) : M normalized :=
  let* response := _rpc_request self "getinfo" [] in
  lift (_handle_response self response).

Definition getbestblockhash (self : t) : M normalized :=
  let* response := _rpc_request self "getbestblockhash" [] in
  lift (_handle_response self response).

Definition getblock (self : t) (hash_or_height : value)
    (verbosity : option value) : M normalized :=
  let verbosity := or_default (VInt 1) verbosity in
  let* response := _rpc_request self "getblock" [hash_or_height; verbosity] in
  lift (_handle_response self response).

Definition getcurrencystate (self : t) (currency : value)
    (n conversiondatacurrency : option value) : M normalized :=
  let n := or_default VNone n in
  let conversiondatacurrency := or_default VNone conversiondatacurrency in
  let params := [currency] in
  let params :=
    if negb (is_none n) then append params n else append params (VStr "") in
  let params :=
    if negb (is_none conversiondatacurrency)
    then append params conversiondatacurrency else params in
  let* response := _rpc_request self "getcurrencystate" params in
  lift (_handle_response self response).

Definition getimports (self : t) (currency : value)
    (heightstart heightend : option value) : M normalized :=
  let heightstart := or_default VNone heightstart in
  let heightend := or_default VNone heightend in
  let params := [currency] in
  let params :=
    if negb (is_none heightstart)
    then append params heightstart else append params (VStr "") in
  let params :=
    if negb (is_none heightend) then append params heightend else params in
  let* response := _rpc_request self "getimports" [currency] in
  lift (_handle_response self response).

(** The first parameter is spelled [curency] in the signature; the body
    reads [currency]. *)
Definition getexports (self : t) (curency : value)
    (heightstart heightend : option value) : M normalized :=
  let heightstart := or_default VNone heightstart in
  let heightend := or_default VNone heightend in
  let locals :=
    [("curency", curency);
     ("heightstart", heightstart);
     ("heightend", heightend)] in
  let* currency := lift (load_name locals "currency") in
  let params := [currency] in
  let params :=
    if negb (is_none heightstart)
    then append params heightstart else append params (VStr "") in
  let params :=
    if negb (is_none heightend) then append params heightend else params in
  let* response := _rpc_request self "getexports" [] in
  lift (_handle_response self response).

Definition getwalletinfo (self : t) : M normalized :=
  let* response := _rpc_request self "getwalletinfo" [] in
  lift (_handle_response self response).

Definition help (self : t) (command : option value) : M normalized :=
  let command := or_default VNone command in
  let params := if negb (is_none command) then [command] else [] in
  let* response := _rpc_request self "help" params in
  lift (_handle_response self response).

Definition stop (self : t) : M normalized :=
  let* response := _rpc_request self "stop" [] in
  lift (_handle_response self response).

Definition getnewaddress (self : t) : M normalized :=
  let* response := _rpc_request self "getnewaddress" [] in
  lift (_handle_response self response).

Definition validateaddress (self : t) (address : value) : M normalized :=
  let* response := _rpc_request self "validateaddress" [address] in
  lift (_handle_response self response).

Definition getblockcount (self : t) : M normalized :=
  let* response := _rpc_request self "getblockcount" [] in
  lift (_handle_response self response).

Definition getblockhash (self : t) (index : value) : M normalized :=
  let* response := _rpc_request self "getblockhash" [index] in
  lift (_handle_response self response).

Definition getgenerate (self : t) : M normalized :=
  let* response := _rpc_request self "getgenerate" [] in
  lift (_handle_response self response).

Definition setgenerate (self : t) (generate : value)
    (genproclimit : option value) : M normalized :=
  let genproclimit := or_default VNone genproclimit in
  let params := [generate] in
  let params :=
    if negb (is_none genproclimit) then append params genproclimit else params in
  let* response := _rpc_request self "setgenerate" params in
  lift (_handle_response self response).

Definition getmininginfo (self : t) : M normalized :=
  let* response := _rpc_request self "getmininginfo" [] in
  lift (_handle_response self response).

Definition estimateconversion (self : t) (amount from_currency to_currency : value)
    (via : option value) : M normalized :=
  let via := or_default VNone via in
  let param_obj :=
    [("currency", from_currency);
     ("convertto", to_currency);
     ("amount", amount)] in
  let param_obj :=
    if truthy via then Dict.set "via" via param_obj else param_obj in
  let* response := _rpc_request self "estimateconversion" [VDict param_obj] in
  lift (_handle_response self response).

Definition getcurrency (self : t) (currency : value) : M normalized :=
  let* response := _rpc_request self "getcurrency" [currency] in
  lift (_handle_response self response).

Definition getrawtransaction (self : t) (txid : value) (verbose : option value)
    : M normalized :=
  let verbose := or_default (VBool true) verbose in
  let verbose_flag := if truthy verbose then VInt 1 else VStr "" in
  let* response := _rpc_request self "getrawtransaction" [txid; verbose_flag] in
  lift (_handle_response self response).

Definition getidentity (self : t) (identity : value) : M normalized :=
  let* response := _rpc_request self "getidentity" [identity] in
  lift (_handle_response self response).

End VerusClient.

(** * Vocabulary of the properties *)

Import VerusClient.

(** Every [dict] Python builds has each key once. *)
Definition wf (d : dict) : Prop := NoDup (Dict.keys d).

(** A value is strictly smaller than any container that holds it. *)
Fixpoint size (v : value) : nat :=
  match v with
  | VList items => S (list_sum (map size items))
  | VDict entries =>
      S (list_sum (map (fun kv : string * value => let (_, x) := kv in size x)
                       entries))
  | _ => 1%nat
  end.

(** The client that the defaults of the constructor give. *)
Definition localhost : VerusClient.t :=
  {| host := "127.0.0.1"; network := "mainnet";
     rpc_user := "username"; rpc_password := "password";
     port := 27486; native_currency := "vrsc";
     url := "http://127.0.0.1:27486/" |}.

Definition is_dict (v : value) : bool :=
  match v with
  | VDict _ => true
  | _ => false
  end.

(** The names that the class answers itself, through a data descriptor,
    whatever the instance holds under them: for these three, attribute
    access does not read the instance's [__dict__]. *)
Definition class_owned (name : string) : bool :=
  existsb (String.eqb name) ["__class__"; "__dict__"; "__weakref__"].

(** The record of the specification, in its words: every key of the
    object is an attribute with the object's value, one more field holds
    the mapping, and there is no other attribute. *)
Definition keyed_record (entries : dict) (data : VerusResponseData.t) : Prop :=
  (forall k v, Dict.get k entries = Some v ->
               VerusResponseData.attr data k = Some v)
  /\ VerusResponseData.attr data "response" = Some (VDict entries)
  /\ (forall k, In k (Dict.keys data) ->
                In k (Dict.keys entries) \/ k = "response").

Definition ab : dict := [("a", VInt 1); ("b", VStr "x")].

(** The capital of a lower-case ASCII letter. *)
Definition capital (p : ascii) : ascii := ascii_of_N (Text.code p - 32).

Fixpoint lower_case_letters (pattern : string) : bool :=
  match pattern with
  | EmptyString => true
  | String p rest => Text.in_range 97 122 (Text.code p) && lower_case_letters rest
  end.

(** Equality up to letter case, in the words of the specification: the
    same length, and at each place the letter of the (lower-case)
    pattern or its capital. *)
Fixpoint equal_ignoring_case (s pattern : string) : bool :=
  match s, pattern with
  | EmptyString, EmptyString => true
  | String c s', String p pattern' =>
      (Ascii.eqb c p || Ascii.eqb c (capital p)) && equal_ignoring_case s' pattern'
  | _, _ => false
  end.

(** The envelope of the specification: protocol version, the client's
    identifier, the method and the parameters, in this order. *)
Definition envelope (method : string) (params : list value) : value :=
  VDict [("jsonrpc", VStr "1.0");
         ("id", VStr "python-client");
         ("method", VStr method);
         ("params", VList params)].

(** The POST of the specification for a call of [method] on [params]. *)
Definition rpc_post (self : VerusClient.t) (method : string)
    (params : list value) : http_request :=
  {| req_url := url self;
     req_auth := (rpc_user self, rpc_password self);
     req_data := Text.json_dumps (envelope method params);
     req_headers := [("content-type", "text/plain")] |}.

(** The world once [req] has been posted. *)
Definition after (net : world) (req : http_request) : world :=
  {| posted := (posted net ++ [req])%list; daemon := daemon net |}.

Definition ok_status (sc : Z) : Prop := sc < 400 \/ 600 <= sc.

(** What [_rpc_request] makes of the daemon's reply. *)
Definition outcome (reply : http_reply) : result dict :=
  match reply with
  | NoReply diagnostic => Raise (ConnectionError diagnostic)
  | Reply sc body =>
      if (400 <=? sc) && (sc <? 600) then Raise (HTTPError sc)
      else match body with
           | None => Raise JSONDecodeError
           | Some (VDict wire) =>
               if is_none (Dict.get_or_none "error" wire) then Ok wire
               else Raise (Exception
                      ("RPC Error: " ++ Text.str (Dict.get_or_none "error" wire)))
           | Some other =>
               Raise (AttributeError
                 ("'" ++ type_name other ++ "' object has no attribute 'get'"))
           end
  end.

(** The body shared by the catalogue entries: one request, then the
    normalizer on what it returns. *)
Definition call (self : VerusClient.t) (method : string) (params : list value)
    : M normalized :=
  let* response := _rpc_request self method params in
  lift (_handle_response self response).

(** A text between double quotes. *)
Definition quoted (s : string) : string := Text.dquote ++ s ++ Text.dquote.

(** A world in which nothing was posted yet and whose daemon gives the
    same reply to every request. *)
Definition answering (reply : http_reply) : world :=
  {| posted := []; daemon := fun _ _ => reply |}.

(** One use of the catalogue: an entry with the arguments it is given,
    an argument left out being [None]. *)
Inductive entry : Type :=
| Getinfo
| Getwalletinfo
| Help (command : option value)
| Stop
| Getnewaddress
| Validateaddress (address : value)
| Getbestblockhash
| Getblock (hash_or_height : value) (verbosity : option value)
| Getblockcount
| Getblockhash (index : value)
| Getgenerate
| Setgenerate (generate : value) (genproclimit : option value)
| Getmininginfo
| Estimateconversion (amount from_currency to_currency : value)
    (via : option value)
| Getcurrency (currency : value)
| Getcurrencystate (currency : value) (n conversiondatacurrency : option value)
| Getimports (currency : value) (heightstart heightend : option value)
| Getexports (curency : value) (heightstart heightend : option value)
| Getrawtransaction (txid : value) (verbose : option value)
| Getidentity (identity : value).

Definition invoke (self : VerusClient.t) (e : entry) : M normalized :=
  match e with
  | Getinfo => getinfo self
  | Getwalletinfo => getwalletinfo self
  | Help command => help self command
  | Stop => stop self
  | Getnewaddress => getnewaddress self
  | Validateaddress address => validateaddress self address
  | Getbestblockhash => getbestblockhash self
  | Getblock hash_or_height verbosity => getblock self hash_or_height verbosity
  | Getblockcount => getblockcount self
  | Getblockhash index => getblockhash self index
  | Getgenerate => getgenerate self
  | Setgenerate generate genproclimit => setgenerate self generate genproclimit
  | Getmininginfo => getmininginfo self
  | Estimateconversion amount from_currency to_currency via =>
      estimateconversion self amount from_currency to_currency via
  | Getcurrency currency => getcurrency self currency
  | Getcurrencystate currency n conversiondatacurrency =>
      getcurrencystate self currency n conversiondatacurrency
  | Getimports currency heightstart heightend =>
      getimports self currency heightstart heightend
  | Getexports curency heightstart heightend =>
      getexports self curency heightstart heightend
  | Getrawtransaction txid verbose => getrawtransaction self txid verbose
  | Getidentity identity => getidentity self identity
  end.

(** The name of the entry in the class. *)
Definition entry_name (e : entry) : string :=
  match e with
  | Getinfo => "getinfo"
  | Getwalletinfo => "getwalletinfo"
  | Help _ => "help"
  | Stop => "stop"
  | Getnewaddress => "getnewaddress"
  | Validateaddress _ => "validateaddress"
  | Getbestblockhash => "getbestblockhash"
  | Getblock _ _ => "getblock"
  | Getblockcount => "getblockcount"
  | Getblockhash _ => "getblockhash"
  | Getgenerate => "getgenerate"
  | Setgenerate _ _ => "setgenerate"
  | Getmininginfo => "getmininginfo"
  | Estimateconversion _ _ _ _ => "estimateconversion"
  | Getcurrency _ => "getcurrency"
  | Getcurrencystate _ _ _ => "getcurrencystate"
  | Getimports _ _ _ => "getimports"
  | Getexports _ _ _ => "getexports"
  | Getrawtransaction _ _ => "getrawtransaction"
  | Getidentity _ => "getidentity"
  end.

Definition is_getexports (e : entry) : bool :=
  match e with
  | Getexports _ _ _ => true
  | _ => false
  end.

(** The daemon gives [reply] to whatever is posted next. *)
Definition replies (net : world) (reply : http_reply) : Prop :=
  forall req, daemon net (posted net) req = reply.

(** One entry of [__repr__]. *)
Definition shown (kv : string * value) : string :=
  let (k, v) := kv in k ++ "=" ++ Text.repr v.

(** * Properties *)

(** ** Dictionaries *)

Section DictFacts.

Import Dict.

Lemma get_set_same (k : string) (v : value) (d : dict) :
  get k (set k v d) = Some v.
Proof.
  induction d as [|[k' v'] rest IH]; cbn.
  - now rewrite String.eqb_refl.
  - destruct (String.eqb k k') eqn:E; cbn; now rewrite E.
Qed.

Lemma get_set_other (k k' : string) (v : value) (d : dict) :
  k' <> k -> get k' (set k v d) = get k' d.
Proof.
  intros Hne.
  induction d as [|[k0 v0] rest IH]; cbn.
  - apply String.eqb_neq in Hne. now rewrite Hne.
  - destruct (String.eqb k k0) eqn:E; cbn.
    + apply String.eqb_eq in E. subst k0.
      apply String.eqb_neq in Hne. now rewrite Hne.
    + now rewrite IH.
Qed.

Lemma set_set (k : string) (v v' : value) (d : dict) :
  set k v (set k v' d) = set k v d.
Proof.
  induction d as [|[k0 v0] rest IH]; cbn.
  - now rewrite String.eqb_refl.
  - destruct (String.eqb k k0) eqn:E; cbn; rewrite E; [reflexivity|].
    now rewrite IH.
Qed.

Lemma keys_set (k x : string) (v : value) (d : dict) :
  In x (keys (set k v d)) <-> In x (keys d) \/ x = k.
Proof.
  induction d as [|[k0 v0] rest IH]; cbn.
  - intuition congruence.
  - destruct (String.eqb k k0) eqn:E; cbn.
    + apply String.eqb_eq in E. subst k0. intuition congruence.
    + fold (keys (set k v rest)). fold (keys rest). rewrite IH. intuition.
Qed.

Lemma get_none_iff (k : string) (d : dict) :
  get k d = None <-> ~ In k (keys d).
Proof.
  induction d as [|[k0 v0] rest IH]; cbn.
  - intuition.
  - destruct (String.eqb k k0) eqn:E.
    + apply String.eqb_eq in E. subst k0. split; [discriminate | intuition].
    + apply String.eqb_neq in E. fold (keys rest). rewrite IH.
      intuition congruence.
Qed.

Lemma set_fresh (k : string) (v : value) (d : dict) :
  get k d = None -> set k v d = (d ++ [(k, v)])%list.
Proof.
  induction d as [|[k0 v0] rest IH]; cbn; [reflexivity|].
  destruct (String.eqb k k0); [discriminate|].
  intros H. now rewrite IH.
Qed.

Lemma update_app (entries acc : dict) :
  wf (acc ++ entries)%list -> update acc entries = (acc ++ entries)%list.
Proof.
  unfold update, wf, keys.
  revert acc.
  induction entries as [|[k v] rest IH]; intros acc Hwf; cbn.
  - now rewrite app_nil_r.
  - assert (Hfresh : get k acc = None).
    { apply get_none_iff. unfold keys.
      rewrite map_app in Hwf. cbn in Hwf.
      apply NoDup_remove_2 in Hwf.
      intros Hin. apply Hwf. apply in_or_app. now left. }
    rewrite (set_fresh _ _ _ Hfresh).
    rewrite IH; rewrite <- app_assoc; [reflexivity | exact Hwf].
Qed.

(** Unpacking a well-formed [dict] into keywords and collecting them
    again gives the same entries in the same order. *)
Lemma update_nil (entries : dict) : wf entries -> update [] entries = entries.
Proof. intros Hwf. now rewrite update_app. Qed.

Lemma mem_false_iff (k : string) (d : dict) :
  mem k d = false <-> get k d = None.
Proof. unfold mem. destruct (get k d); intuition discriminate. Qed.

End DictFacts.

Lemma size_entry (k : string) (v : value) (entries : dict) :
  Dict.get k entries = Some v -> (size v < size (VDict entries))%nat.
Proof.
  intros H.
  enough (size v <= list_sum (map (fun kv : string * value =>
                                     let (_, x) := kv in size x) entries))%nat
    by (change (size (VDict entries)) with
          (S (list_sum (map (fun kv : string * value =>
                               let (_, x) := kv in size x) entries))); lia).
  induction entries as [|[k0 v0] rest IH]; [discriminate|].
  change (Dict.get k ((k0, v0) :: rest))
    with (if String.eqb k k0 then Some v0 else Dict.get k rest) in H.
  rewrite map_cons.
  change (list_sum (size v0 :: ?l)) with (size v0 + list_sum l)%nat.
  destruct (String.eqb k k0).
  - injection H as ->. lia.
  - specialize (IH H). lia.
Qed.

(** No [dict] is one of its own values. *)
Lemma dict_not_own_value (k : string) (entries : dict) :
  Dict.get k entries <> Some (VDict entries).
Proof.
  intros H. apply size_entry in H. lia.
Qed.

(** ** The result normalizer *)

Lemma localhost_constructed : construct None None None None = Ok localhost.
Proof. reflexivity. Qed.

Lemma wf_ab : wf ab.
Proof.
  unfold wf, ab. cbn.
  repeat constructor; cbn; intuition discriminate.
Defined.

Lemma handle_response_dict (self : VerusClient.t) (response entries : dict) :
  Dict.get_or_none "result" response = VDict entries ->
  _handle_response self response =
    (let? data := VerusResponseData.new entries in
     Ok (Data (VerusResponseData.setattr data "response" (VDict entries)))).
Proof.
  intros H. unfold _handle_response. now rewrite H.
Qed.

(** C1, as amended.  When the result is an object with no key [self],
    the instance dictionary of the record is the object's entries, in
    their order, with [response] set to the whole mapping.  So the
    attribute [response] holds the mapping; every other key of the
    object is an attribute with the object's value, but for the three
    names that the class answers itself ([__class__], [__dict__],
    [__weakref__]), which the instance dictionary holds all the same;
    and the instance dictionary has no name besides the object's keys
    and [response]. *)
Theorem handle_response_object (self : VerusClient.t) (response entries : dict) :
  Dict.get_or_none "result" response = VDict entries ->
  wf entries ->
  Dict.get "self" entries = None ->
  let data := Dict.set "response" (VDict entries) entries in
  _handle_response self response = Ok (Data data)
  /\ VerusResponseData.attr data "response" = Some (VDict entries)
  /\ (forall k, k <> "response" -> class_owned k = false ->
                VerusResponseData.attr data k = Dict.get k entries)
  /\ (forall k, k <> "response" -> Dict.get k data = Dict.get k entries)
  /\ (forall k, In k (Dict.keys data) <->
                In k (Dict.keys entries) \/ k = "response").
Proof.
  intros Hres Hwf Hself data. subst data.
  unfold VerusResponseData.attr.
  split; [|split; [|split; [|split]]].
  - rewrite (handle_response_dict _ _ _ Hres).
    unfold VerusResponseData.new.
    apply mem_false_iff in Hself. rewrite Hself. cbn [bind_result].
    unfold VerusResponseData.__init__, VerusResponseData.setattr.
    now rewrite (update_nil _ Hwf), set_set.
  - apply get_set_same.
  - intros k Hk _. now apply get_set_other.
  - intros k Hk. now apply get_set_other.
  - intros k. apply keys_set.
Qed.

(** The example of the specification: for the result [{a: 1, b: x}] the
    record has [a = 1], [b = x] and the mapping under [response]. *)
Lemma handle_response_object_ab :
  let response := [("result", VDict ab); ("error", VNone)] in
  exists data,
    _handle_response localhost response = Ok (Data data)
    /\ VerusResponseData.attr data "a" = Some (VInt 1)
    /\ VerusResponseData.attr data "b" = Some (VStr "x")
    /\ VerusResponseData.attr data "response" = Some (VDict ab).
Proof.
  intros response.
  destruct (handle_response_object localhost response ab eq_refl wf_ab eq_refl)
    as (Hrun & Hresp & Hkeys & _).
  eexists. split; [exact Hrun|].
  split; [|split; [|exact Hresp]].
  - rewrite Hkeys; [reflexivity | discriminate | reflexivity].
  - rewrite Hkeys; [reflexivity | discriminate | reflexivity].
Defined.

(** C1, as stated, fails on an object that has a key [response]: the
    record made from [{response: 1}] is not the keyed record of the
    specification, its [response] being the mapping and not [1]. *)
Lemma handle_response_response_key :
  let entries := [("response", VInt 1)] in
  exists data,
    _handle_response localhost [("result", VDict entries); ("error", VNone)]
      = Ok (Data data)
    /\ ~ keyed_record entries data.
Proof.
  eexists. split; [reflexivity|].
  intros (Hkeys & _ & _).
  specialize (Hkeys "response" (VInt 1) eq_refl).
  discriminate Hkeys.
Qed.

(** C4.  A result that is not an object comes back as it is, bare; and
    a response that carries the returned value as its result gives the
    same value again. *)
Theorem handle_response_passthrough (self : VerusClient.t) (response : dict) :
  is_dict (Dict.get_or_none "result" response) = false ->
  let res := Dict.get_or_none "result" response in
  _handle_response self response = Ok (Bare res)
  /\ (forall response',
        Dict.get_or_none "result" response' = res ->
        _handle_response self response' = Ok (Bare res)).
Proof.
  intros Hnd res.
  assert (Hpass : forall r, Dict.get_or_none "result" r = res ->
                            _handle_response self r = Ok (Bare res)).
  { intros r Hr. unfold _handle_response. rewrite Hr.
    subst res. destruct (Dict.get_or_none "result" response);
      try reflexivity; discriminate. }
  split; [now apply Hpass | exact Hpass].
Qed.

(** The examples of the specification: [null], [42] and [[x, y]]. *)
Lemma handle_response_passthrough_examples :
  _handle_response localhost [("result", VNone); ("error", VNone)]
    = Ok (Bare VNone)
  /\ _handle_response localhost [("result", VInt 42); ("error", VNone)]
    = Ok (Bare (VInt 42))
  /\ _handle_response localhost
       [("result", VList [VStr "x"; VStr "y"]); ("error", VNone)]
    = Ok (Bare (VList [VStr "x"; VStr "y"])).
Proof.
  split; [|split].
  - exact (proj1 (handle_response_passthrough localhost
                    [("result", VNone); ("error", VNone)] eq_refl)).
  - exact (proj1 (handle_response_passthrough localhost
                    [("result", VInt 42); ("error", VNone)] eq_refl)).
  - exact (proj1 (handle_response_passthrough localhost
                    [("result", VList [VStr "x"; VStr "y"]); ("error", VNone)]
                    eq_refl)).
Defined.

(** C10.  When the result object has a key [response], any record made
    from it has the whole mapping under [response] and not the value of
    that key, which stays reachable inside the mapping; and a record is
    made whenever the object has no key [self]. *)
Theorem response_key_overwritten
    (self : VerusClient.t) (response entries : dict) (v : value) :
  Dict.get_or_none "result" response = VDict entries ->
  Dict.get "response" entries = Some v ->
  (forall data,
      _handle_response self response = Ok (Data data) ->
      VerusResponseData.attr data "response" <> Some v
      /\ exists mapping,
           VerusResponseData.attr data "response" = Some (VDict mapping)
           /\ mapping = entries
           /\ Dict.get "response" mapping = Some v)
  /\ (Dict.get "self" entries = None ->
      exists data, _handle_response self response = Ok (Data data)).
Proof.
  intros Hres Hv.
  rewrite (handle_response_dict _ _ _ Hres).
  unfold VerusResponseData.new.
  split.
  - intros data. destruct (Dict.mem "self" entries); cbn [bind_result];
      [discriminate|].
    intros [= <-].
    unfold VerusResponseData.attr, VerusResponseData.setattr.
    rewrite get_set_same. split.
    + intros [= Heq]. subst v. exact (dict_not_own_value _ _ Hv).
    + exists entries. auto.
  - intros Hself. apply mem_false_iff in Hself. rewrite Hself.
    cbn [bind_result]. eexists. reflexivity.
Qed.

Lemma response_key_overwritten_example :
  let entries := [("response", VStr "ok"); ("n", VInt 3)] in
  exists data,
    _handle_response localhost [("result", VDict entries); ("error", VNone)]
      = Ok (Data data)
    /\ VerusResponseData.attr data "response" <> Some (VStr "ok")
    /\ VerusResponseData.attr data "response" = Some (VDict entries).
Proof.
  intros entries.
  destruct (response_key_overwritten localhost
              [("result", VDict entries); ("error", VNone)]
              entries (VStr "ok") eq_refl eq_refl) as (Hdata & Hmade).
  destruct (Hmade eq_refl) as (data & Hrun).
  exists data. split; [exact Hrun|].
  destruct (Hdata data Hrun) as (Hne & mapping & Hattr & -> & _).
  split; [exact Hne | exact Hattr].
Defined.

(** ** Construction *)

Lemma lower_char_letter (c p : ascii) :
  Text.in_range 97 122 (Text.code p) = true ->
  Ascii.eqb (Text.lower_char c) p = Ascii.eqb c p || Ascii.eqb c (capital p).
Proof.
  intros Hp.
  destruct p as [[] [] [] [] [] [] [] []]; try discriminate Hp;
    destruct c as [[] [] [] [] [] [] [] []]; reflexivity.
Qed.

Lemma lower_eqb (pattern : string) :
  lower_case_letters pattern = true ->
  forall s, String.eqb (Text.lower s) pattern = equal_ignoring_case s pattern.
Proof.
  induction pattern as [|p pattern IH]; intros Hp s.
  - now destruct s.
  - cbn in Hp. apply andb_true_iff in Hp. destruct Hp as [Hp Hrest].
    destruct s as [|c s]; [reflexivity|].
    cbn [Text.lower String.eqb equal_ignoring_case].
    rewrite <- (lower_char_letter _ _ Hp), <- (IH Hrest).
    now destruct (Ascii.eqb (Text.lower_char c) p).
Qed.

(** C3.  Construction succeeds exactly for the networks that equal
    [mainnet] or [testnet] up to letter case; for any other it raises
    [ValueError], the result then carrying no client at all. *)
Theorem network_checked (host network rpc_user rpc_password : string) :
  if equal_ignoring_case network "mainnet" || equal_ignoring_case network "testnet"
  then exists client,
         __init__ host network rpc_user rpc_password = Ok client
         /\ VerusClient.network client = Text.lower network
  else __init__ host network rpc_user rpc_password
       = Raise (ValueError "Network must be 'mainnet' or 'testnet'").
Proof.
  unfold __init__.
  rewrite (lower_eqb "mainnet" eq_refl), (lower_eqb "testnet" eq_refl).
  destruct (equal_ignoring_case network "mainnet"); cbn.
  - eexists. split; reflexivity.
  - destruct (equal_ignoring_case network "testnet"); cbn.
    + eexists. split; reflexivity.
    + reflexivity.
Qed.

(** C5.  [mainnet] resolves to port 27486 and symbol [vrsc], [testnet]
    to port 18843 and symbol [vrsctest], and the URL of every client
    that construction gives is [http://host:port/] for its host and
    port. *)
Theorem network_resolved (host rpc_user rpc_password : string) :
  __init__ host "mainnet" rpc_user rpc_password
    = Ok {| host := host; network := "mainnet";
            rpc_user := rpc_user; rpc_password := rpc_password;
            port := 27486; native_currency := "vrsc";
            url := "http://" ++ host ++ ":27486/" |}
  /\ __init__ host "testnet" rpc_user rpc_password
    = Ok {| host := host; network := "testnet";
            rpc_user := rpc_user; rpc_password := rpc_password;
            port := 18843; native_currency := "vrsctest";
            url := "http://" ++ host ++ ":18843/" |}
  /\ forall network,
       match __init__ host network rpc_user rpc_password with
       | Ok client =>
           VerusClient.host client = host
           /\ url client
              = "http://" ++ host ++ ":" ++ Text.str_int (port client) ++ "/"
           /\ (port client = 27486 /\ native_currency client = "vrsc"
               \/ port client = 18843 /\ native_currency client = "vrsctest")
       | Raise _ => True
       end.
Proof.
  split; [reflexivity | split; [reflexivity|]].
  intros network. unfold __init__.
  destruct (String.eqb (Text.lower network) "mainnet"); cbn.
  - repeat split. now left.
  - destruct (String.eqb (Text.lower network) "testnet"); cbn.
    + repeat split. now right.
    + exact I.
Qed.

(** ** The request/response transform *)

Lemma rpc_request_run (self : VerusClient.t) (method : string)
    (params : list value) (net : world) :
  let req := rpc_post self method params in
  _rpc_request self method params net
    = (outcome (daemon net (posted net) req), after net req).
Proof.
  cbv zeta.
  unfold _rpc_request, bind, requests.post, lift.
  fold (envelope method params). fold (rpc_post self method params).
  fold (after net (rpc_post self method params)).
  destruct (daemon net (posted net) (rpc_post self method params))
    as [diagnostic | sc body]; [reflexivity|].
  unfold requests.raise_for_status, requests.json, outcome.
  cbn [requests.status_code requests.decoded_body].
  destruct ((400 <=? sc) && (sc <? 600)); [reflexivity|].
  destruct body as [[| | | | | |wire]|]; try reflexivity.
  destruct (is_none (Dict.get_or_none "error" wire)); reflexivity.
Qed.

Lemma ok_status_passes (sc : Z) :
  ok_status sc -> (400 <=? sc) && (sc <? 600) = false.
Proof.
  unfold ok_status. intros H.
  apply andb_false_iff.
  destruct H; [left; apply Z.leb_gt | right; apply Z.ltb_ge]; lia.
Qed.

Lemma call_run (self : VerusClient.t) (method : string) (params : list value)
    (net : world) :
  let req := rpc_post self method params in
  call self method params net
    = (let? response := outcome (daemon net (posted net) req) in
       _handle_response self response,
       after net req).
Proof.
  cbv zeta. unfold call, bind, lift.
  rewrite rpc_request_run.
  now destruct (outcome _).
Qed.

(** A daemon error is raised as an [Exception] whose text is the payload
    as Python prints it, and nothing is normalized. *)
Lemma call_rpc_error (self : VerusClient.t) (method : string)
    (params : list value) (net : world) (sc : Z) (wire : dict) :
  daemon net (posted net) (rpc_post self method params)
    = Reply sc (Some (VDict wire)) ->
  ok_status sc ->
  is_none (Dict.get_or_none "error" wire) = false ->
  call self method params net
    = (Raise (Exception
                ("RPC Error: " ++ Text.str (Dict.get_or_none "error" wire))),
       after net (rpc_post self method params)).
Proof.
  intros Hreply Hsc Herr.
  rewrite call_run. cbv zeta. rewrite Hreply. unfold outcome.
  now rewrite (ok_status_passes _ Hsc), Herr.
Qed.

(** The example of the specification: the payload with code [-1] and
    message [bad] is in the text of the exception as Python prints it. *)
Lemma call_rpc_error_example :
  let payload := VDict [("code", VInt (-1)); ("message", VStr "bad")] in
  let wire := [("result", VNone); ("error", payload); ("id", VStr "python-client")] in
  fst (call localhost "getinfo" [] (answering (Reply 200 (Some (VDict wire)))))
    = Raise (Exception "RPC Error: {'code': -1, 'message': 'bad'}").
Proof.
  intros payload wire.
  now rewrite (call_rpc_error localhost "getinfo" []
                 (answering (Reply 200 (Some (VDict wire)))) 200 wire
                 eq_refl (or_introl eq_refl) eq_refl).
Qed.

(** With no daemon error the call comes to what the normalizer makes of
    the response. *)
Lemma call_no_error (self : VerusClient.t) (method : string)
    (params : list value) (net : world) (sc : Z) (wire : dict) :
  daemon net (posted net) (rpc_post self method params)
    = Reply sc (Some (VDict wire)) ->
  ok_status sc ->
  is_none (Dict.get_or_none "error" wire) = true ->
  call self method params net
    = (_handle_response self wire, after net (rpc_post self method params)).
Proof.
  intros Hreply Hsc Herr.
  rewrite call_run. cbv zeta. rewrite Hreply. unfold outcome.
  now rewrite (ok_status_passes _ Hsc), Herr.
Qed.

Lemma append_assoc (s1 s2 s3 : string) : (s1 ++ s2) ++ s3 = s1 ++ (s2 ++ s3).
Proof.
  induction s1 as [|c s1 IH]; cbn; [reflexivity | now rewrite IH].
Qed.

(** Decides an equation between texts that differ in how their pieces
    are grouped. *)
Ltac same_text := cbn; repeat (rewrite append_assoc; cbn); reflexivity.

(** C6.  Whatever the daemon answers, a request posts once: the world
    has one more request, to the client's URL, with the client's
    credentials, the header [content-type: text/plain], and for its body
    the envelope serialized, whose identifier is the same text for every
    method and every parameter list. *)
Theorem rpc_request_posts (self : VerusClient.t) (method : string)
    (params : list value) (net : world) :
  let net' := snd (_rpc_request self method params net) in
  let body :=
    Text.json_dumps
      (VDict [("jsonrpc", VStr "1.0");
              ("id", VStr "python-client");
              ("method", VStr method);
              ("params", VList params)]) in
  posted net'
    = (posted net
       ++ [{| req_url := url self;
              req_auth := (rpc_user self, rpc_password self);
              req_data := body;
              req_headers := [("content-type", "text/plain")] |}])%list
  /\ daemon net' = daemon net
  /\ body
     = "{" ++ quoted "jsonrpc" ++ ": " ++ quoted "1.0" ++ ", "
           ++ quoted "id" ++ ": " ++ quoted "python-client" ++ ", "
           ++ quoted "method" ++ ": " ++ Text.json_str method ++ ", "
           ++ quoted "params" ++ ": " ++ Text.json_dumps (VList params) ++ "}".
Proof.
  cbv zeta. rewrite rpc_request_run. cbv zeta.
  split; [reflexivity | split; [reflexivity|]].
  same_text.
Qed.

Lemma getinfo_call (self : VerusClient.t) : getinfo self = call self "getinfo" [].
Proof. reflexivity. Qed.

Lemma getbestblockhash_call (self : VerusClient.t) :
  getbestblockhash self = call self "getbestblockhash" [].
Proof. reflexivity. Qed.

Lemma getblock_call (self : VerusClient.t) (hash_or_height : value)
    (verbosity : option value) :
  getblock self hash_or_height verbosity
    = call self "getblock" [hash_or_height; or_default (VInt 1) verbosity].
Proof. reflexivity. Qed.

(** The height range is built and then left out of the request. *)
Lemma getimports_call (self : VerusClient.t) (currency : value)
    (heightstart heightend : option value) :
  getimports self currency heightstart heightend
    = call self "getimports" [currency].
Proof. reflexivity. Qed.

(** The body reads a name that the signature does not bind. *)
Lemma getexports_run (self : VerusClient.t) (curency : value)
    (heightstart heightend : option value) (net : world) :
  getexports self curency heightstart heightend net
    = (Raise (NameError "name 'currency' is not defined"), net).
Proof. reflexivity. Qed.

(** The sibling entry passes on the list it builds. *)
Lemma getcurrencystate_call (self : VerusClient.t)
    (currency n conversiondatacurrency : value) :
  is_none n = false ->
  is_none conversiondatacurrency = false ->
  getcurrencystate self currency (Some n) (Some conversiondatacurrency)
    = call self "getcurrencystate" [currency; n; conversiondatacurrency].
Proof.
  intros Hn Hc. unfold getcurrencystate. cbn [or_default].
  now rewrite Hn, Hc.
Qed.

Lemma call_posts (self : VerusClient.t) (method : string)
    (params : list value) (net : world) :
  snd (call self method params net) = after net (rpc_post self method params).
Proof. now rewrite call_run. Qed.

(** C2, at the input on which the code departs from it: the daemon
    reports no error and the result is an object with a key [self].
    The request is posted, and the call then raises [TypeError] where
    a normalized result is due. *)
Theorem self_key_raises :
  let wire :=
    [("result", VDict [("self", VInt 1)]);
     ("error", VNone);
     ("id", VStr "python-client")] in
  let net := answering (Reply 200 (Some (VDict wire))) in
  is_none (Dict.get_or_none "error" wire) = true
  /\ getinfo localhost net
     = (Raise (TypeError
          "VerusResponseData.__init__() got multiple values for argument 'self'"),
        after net (rpc_post localhost "getinfo" [])).
Proof.
  intros wire net. split; [reflexivity|].
  rewrite getinfo_call.
  now rewrite (call_no_error localhost "getinfo" [] net 200 wire
                 eq_refl (or_introl eq_refl) eq_refl).
Qed.

(** C7, at the input on which the code departs from it: with both
    heights supplied, [getimports] posts the currency alone, which is
    not the documented list, and [getexports] raises before it posts
    anything. *)
Theorem height_range_dropped :
  let net :=
    answering (Reply 200 (Some (VDict [("result", VList []); ("error", VNone)]))) in
  let currency := VStr "vrsc" in
  let heightstart := VInt 100 in
  let heightend := VInt 200 in
  posted (snd (getimports localhost currency (Some heightstart) (Some heightend) net))
    = [rpc_post localhost "getimports" [currency]]
  /\ rpc_post localhost "getimports" [currency]
     <> rpc_post localhost "getimports" [currency; heightstart; heightend]
  /\ getexports localhost currency (Some heightstart) (Some heightend) net
     = (Raise (NameError "name 'currency' is not defined"), net).
Proof.
  cbv zeta. split; [|split].
  - now rewrite getimports_call, call_posts.
  - discriminate.
  - apply getexports_run.
Qed.

(** C8.  [getbestblockhash] posts the method [getbestblockhash] with no
    parameters, and when the daemon replies with the result [000abc]
    and no error, the call returns that text, bare. *)
Theorem getbestblockhash_scenario (self : VerusClient.t) (net : world) (sc : Z) :
  daemon net (posted net) (rpc_post self "getbestblockhash" [])
    = Reply sc (Some (VDict [("result", VStr "000abc");
                             ("error", VNone);
                             ("id", VStr "x")])) ->
  ok_status sc ->
  getbestblockhash self net
    = (Ok (Bare (VStr "000abc")),
       after net (rpc_post self "getbestblockhash" []))
  /\ req_data (rpc_post self "getbestblockhash" [])
     = "{" ++ quoted "jsonrpc" ++ ": " ++ quoted "1.0" ++ ", "
           ++ quoted "id" ++ ": " ++ quoted "python-client" ++ ", "
           ++ quoted "method" ++ ": " ++ quoted "getbestblockhash" ++ ", "
           ++ quoted "params" ++ ": []}".
Proof.
  intros Hreply Hsc. split; [|reflexivity].
  rewrite getbestblockhash_call.
  now rewrite (call_no_error _ _ _ _ _ _ Hreply Hsc eq_refl).
Qed.

Lemma getbestblockhash_scenario_localhost :
  let net :=
    answering (Reply 200 (Some (VDict [("result", VStr "000abc");
                                       ("error", VNone);
                                       ("id", VStr "x")]))) in
  ok_status 200
  /\ fst (getbestblockhash localhost net) = Ok (Bare (VStr "000abc"))
  /\ posted (snd (getbestblockhash localhost net))
     = [rpc_post localhost "getbestblockhash" []].
Proof.
  intros net.
  assert (Hsc : ok_status 200) by (left; reflexivity).
  split; [exact Hsc|].
  destruct (getbestblockhash_scenario localhost net 200 eq_refl Hsc) as [Hrun _].
  rewrite Hrun. split; reflexivity.
Defined.

(** C9.  [getblock] posts the hash or height followed by the verbosity
    it was given, and by [1] when it was given none; for the arguments
    [000abc] and [2] the parameters on the wire are those two. *)
Theorem getblock_params (self : VerusClient.t) (hash_or_height verbosity : value)
    (net : world) :
  posted (snd (getblock self hash_or_height (Some verbosity) net))
    = (posted net
       ++ [rpc_post self "getblock" [hash_or_height; verbosity]])%list
  /\ posted (snd (getblock self hash_or_height None net))
    = (posted net
       ++ [rpc_post self "getblock" [hash_or_height; VInt 1]])%list
  /\ req_data (rpc_post self "getblock" [VStr "000abc"; VInt 2])
     = "{" ++ quoted "jsonrpc" ++ ": " ++ quoted "1.0" ++ ", "
           ++ quoted "id" ++ ": " ++ quoted "python-client" ++ ", "
           ++ quoted "method" ++ ": " ++ quoted "getblock" ++ ", "
           ++ quoted "params" ++ ": [" ++ quoted "000abc" ++ ", 2]}".
Proof.
  rewrite !getblock_call, !call_posts.
  repeat split.
Qed.

(** * Further properties of the code *)

(** ** What [_rpc_request] does with a reply *)

Lemma error_status (sc : Z) :
  400 <= sc < 600 -> (400 <=? sc) && (sc <? 600) = true.
Proof.
  intros H. apply andb_true_iff.
  split; [apply Z.leb_le | apply Z.ltb_lt]; lia.
Qed.

Lemma ok_status_iff (sc : Z) :
  (400 <=? sc) && (sc <? 600) = false <-> ok_status sc.
Proof.
  unfold ok_status. rewrite andb_false_iff, Z.leb_gt, Z.ltb_ge. intuition.
Qed.

Lemma is_none_iff (v : value) : is_none v = true <-> v = VNone.
Proof. destruct v; cbn; intuition discriminate. Qed.

(** X1.  A status from 400 to 599 raises [HTTPError] before the body is
    looked at: whatever the body holds, an error payload of the daemon
    included, the caller gets the status alone.  The request has been
    posted. *)
Theorem http_error_hides_body (self : VerusClient.t) (method : string)
    (params : list value) (net : world) (sc : Z) (body : option value) :
  daemon net (posted net) (rpc_post self method params) = Reply sc body ->
  400 <= sc < 600 ->
  _rpc_request self method params net
    = (Raise (HTTPError sc), after net (rpc_post self method params)).
Proof.
  intros Hreply Hsc.
  rewrite rpc_request_run. cbv zeta. rewrite Hreply.
  unfold outcome. now rewrite (error_status _ Hsc).
Qed.

Lemma http_error_hides_body_500 :
  let payload := VDict [("code", VInt (-8)); ("message", VStr "bad")] in
  let body := VDict [("result", VNone); ("error", payload)] in
  let net := answering (Reply 500 (Some body)) in
  400 <= 500 < 600
  /\ fst (_rpc_request localhost "getblock" [VInt (-1)] net)
     = Raise (HTTPError 500).
Proof.
  intros payload body net.
  assert (Hsc : 400 <= 500 < 600) by lia.
  split; [exact Hsc|].
  now rewrite (http_error_hides_body localhost "getblock" [VInt (-1)] net
                 500 (Some body) eq_refl Hsc).
Defined.

(** X2.  A request returns a response exactly when the daemon replied
    with a status outside 400..599 and a JSON object whose [error] is
    null or missing; the response returned is that object. *)
Theorem rpc_request_returns_iff (self : VerusClient.t) (method : string)
    (params : list value) (net : world) (wire : dict) :
  fst (_rpc_request self method params net) = Ok wire
  <-> exists sc,
        daemon net (posted net) (rpc_post self method params)
          = Reply sc (Some (VDict wire))
        /\ ok_status sc
        /\ Dict.get_or_none "error" wire = VNone.
Proof.
  rewrite rpc_request_run. cbv zeta. cbn [fst].
  split.
  - destruct (daemon net (posted net) (rpc_post self method params))
      as [diagnostic | sc body]; cbn [outcome]; [discriminate|].
    destruct ((400 <=? sc) && (sc <? 600)) eqn:Hsc; [discriminate|].
    destruct body as [[| | | | | |w]|]; try discriminate.
    destruct (is_none (Dict.get_or_none "error" w)) eqn:Herr; [|discriminate].
    intros [= ->]. exists sc.
    split; [reflexivity|].
    split; [now apply ok_status_iff | now apply is_none_iff].
  - intros (sc & Hreply & Hsc & Herr).
    rewrite Hreply. cbn [outcome].
    apply ok_status_iff in Hsc. rewrite Hsc, Herr. reflexivity.
Qed.





(** ** The catalogue as a whole *)

Lemma invoke_call (self : VerusClient.t) (e : entry) :
  is_getexports e = false ->
  exists params, invoke self e = call self (entry_name e) params.
Proof.
  destruct e; intros He; try discriminate He; eexists; reflexivity.
Qed.

(** X5.  Every entry but [getexports] posts exactly one request, whose
    method is the entry's own name, and leaves the earlier requests and
    the daemon as they were; [getexports] raises [NameError] and posts
    nothing. *)
Theorem catalogue_posts_once (self : VerusClient.t) (e : entry) (net : world) :
  if is_getexports e
  then invoke self e net
       = (Raise (NameError "name 'currency' is not defined"), net)
  else exists params,
         snd (invoke self e net)
         = {| posted := (posted net ++ [rpc_post self (entry_name e) params])%list;
              daemon := daemon net |}.
Proof.
  destruct (is_getexports e) eqn:He.
  - destruct e; try discriminate He. apply getexports_run.
  - destruct (invoke_call self e He) as (params & ->).
    exists params. now rewrite call_posts.
Qed.

Lemma catalogue_outcome (self : VerusClient.t) (e : entry) (net : world)
    (reply : http_reply) :
  replies net reply ->
  is_getexports e = false ->
  fst (invoke self e net)
    = (let? response := outcome reply in _handle_response self response).
Proof.
  intros Hreply He.
  destruct (invoke_call self e He) as (params & ->).
  rewrite call_run. cbv zeta. cbn [fst]. now rewrite Hreply.
Qed.

(** X6.  With a reply whose status is outside 400..599 and whose body
    is an object with a null or missing [error], every entry but
    [getexports] returns what [_handle_response] makes of that object:
    no entry reads or changes the result itself. *)
Theorem catalogue_returns_normalized (self : VerusClient.t) (e : entry)
    (net : world) (sc : Z) (wire : dict) :
  replies net (Reply sc (Some (VDict wire))) ->
  ok_status sc ->
  Dict.get_or_none "error" wire = VNone ->
  is_getexports e = false ->
  fst (invoke self e net) = _handle_response self wire.
Proof.
  intros Hreply Hsc Herr He.
  rewrite (catalogue_outcome _ _ _ _ Hreply He).
  unfold outcome. now rewrite (ok_status_passes _ Hsc), Herr.
Qed.

Lemma replies_answering (reply : http_reply) : replies (answering reply) reply.
Proof. intros req. reflexivity. Defined.

Lemma catalogue_returns_normalized_getblockcount :
  let wire := [("result", VInt 42); ("error", VNone); ("id", VStr "python-client")] in
  let net := answering (Reply 200 (Some (VDict wire))) in
  ok_status 200
  /\ fst (invoke localhost Getblockcount net) = Ok (Bare (VInt 42)).
Proof.
  intros wire net.
  assert (Hsc : ok_status 200) by (left; reflexivity).
  split; [exact Hsc|].
  now rewrite (catalogue_returns_normalized localhost Getblockcount net 200 wire
                 (replies_answering _) Hsc eq_refl eq_refl).
Defined.

(** X7.  No entry turns a failed exchange into a value: with no reply
    every entry but [getexports] raises [ConnectionError], with a status
    from 400 to 599 [HTTPError] with that status, and with a body that
    is not JSON [JSONDecodeError]. *)
Theorem catalogue_transport_failure (self : VerusClient.t) (e : entry)
    (net : world) (reply : http_reply) :
  replies net reply ->
  is_getexports e = false ->
  match reply with
  | NoReply diagnostic =>
      fst (invoke self e net) = Raise (ConnectionError diagnostic)
  | Reply sc body =>
      if (400 <=? sc) && (sc <? 600)
      then fst (invoke self e net) = Raise (HTTPError sc)
      else body = None -> fst (invoke self e net) = Raise JSONDecodeError
  end.
Proof.
  intros Hreply He.
  rewrite (catalogue_outcome _ _ _ _ Hreply He).
  destruct reply as [diagnostic | sc body]; cbn [outcome]; [reflexivity|].
  destruct ((400 <=? sc) && (sc <? 600)); [reflexivity|].
  now intros ->.
Qed.

Lemma catalogue_transport_failure_404 :
  fst (invoke localhost (Getblockhash (VInt 7)) (answering (Reply 404 None)))
    = Raise (HTTPError 404).
Proof.
  exact (catalogue_transport_failure localhost (Getblockhash (VInt 7))
           (answering (Reply 404 None)) (Reply 404 None)
           (replies_answering _) eq_refl).
Defined.



(** ** The normalizer and [VerusResponseData] *)

(** X9.  The normalizer fails in one case only: the result is an object
    with a key [self].  It then raises [TypeError]; on every other
    response it returns. *)
Theorem handle_response_raises_iff (self : VerusClient.t) (response : dict) :
  (exists ex, _handle_response self response = Raise ex)
  <-> exists entries,
        Dict.get_or_none "result" response = VDict entries
        /\ Dict.mem "self" entries = true.
Proof.
  unfold _handle_response, VerusResponseData.new.
  destruct (Dict.get_or_none "result" response) as [| | | | | |entries];
    try (split; [intros (ex & H); discriminate H
                | intros (entries & H & _); discriminate H]).
  destruct (Dict.mem "self" entries) eqn:Hself; cbn [bind_result].
  - split; [|eexists; reflexivity].
    intros _. exists entries. now split.
  - split; [intros (ex & H); discriminate H|].
    intros (entries' & [= <-] & H). congruence.
Qed.

Lemma keys_set_order (k : string) (v : value) (d : dict) :
  Dict.keys (Dict.set k v d)
    = if Dict.mem k d then Dict.keys d else (Dict.keys d ++ [k])%list.
Proof.
  unfold Dict.mem.
  induction d as [|[k0 v0] rest IH]; cbn; [reflexivity|].
  destruct (String.eqb k k0) eqn:E; cbn; [reflexivity|].
  fold (Dict.keys (Dict.set k v rest)). fold (Dict.keys rest).
  rewrite IH. now destruct (Dict.get k rest).
Qed.

(** X10.  The record keeps the order of the object's keys.  When the
    object has no key [response], the record is the object's entries
    followed by [response]; when it has one, [response] stays at the
    place of that key and the record has as many attributes as the
    object has keys. *)
Theorem record_keeps_order (self : VerusClient.t) (response entries : dict) :
  Dict.get_or_none "result" response = VDict entries ->
  wf entries ->
  Dict.get "self" entries = None ->
  exists data,
    _handle_response self response = Ok (Data data)
    /\ Dict.keys data
       = (if Dict.mem "response" entries
          then Dict.keys entries
          else (Dict.keys entries ++ ["response"])%list)
    /\ (Dict.get "response" entries = None ->
        data = (entries ++ [("response", VDict entries)])%list).
Proof.
  intros Hres Hwf Hself.
  exists (Dict.set "response" (VDict entries) entries).
  split; [|split].
  - rewrite (handle_response_dict _ _ _ Hres).
    unfold VerusResponseData.new.
    apply mem_false_iff in Hself. rewrite Hself. cbn [bind_result].
    unfold VerusResponseData.__init__, VerusResponseData.setattr.
    now rewrite (update_nil _ Hwf), set_set.
  - apply keys_set_order.
  - intros Hfresh. now apply set_fresh.
Qed.

Lemma record_keeps_order_ab :
  let response := [("result", VDict ab); ("error", VNone)] in
  exists data,
    _handle_response localhost response = Ok (Data data)
    /\ Dict.keys data = ["a"; "b"; "response"].
Proof.
  intros response.
  destruct (record_keeps_order localhost response ab eq_refl wf_ab eq_refl)
    as (data & Hrun & Hkeys & _).
  exists data. split; [exact Hrun | exact Hkeys].
Defined.

(** X11.  A [VerusResponseData] made directly from keywords has for its
    instance dictionary the keywords, in their order, with [response]
    set to [None]: the attribute [response] is [None] whatever the
    keywords say, a keyword [response] included, and every other
    keyword is an attribute with its value, but for the three names
    that the class answers itself ([__class__], [__dict__],
    [__weakref__]), which the instance dictionary holds all the same. *)
Theorem constructor_clears_response (kwargs : dict) :
  wf kwargs ->
  Dict.get "self" kwargs = None ->
  let data := Dict.set "response" VNone kwargs in
  VerusResponseData.new kwargs = Ok data
  /\ VerusResponseData.attr data "response" = Some VNone
  /\ (forall k, k <> "response" -> class_owned k = false ->
                VerusResponseData.attr data k = Dict.get k kwargs)
  /\ (forall k, k <> "response" -> Dict.get k data = Dict.get k kwargs).
Proof.
  intros Hwf Hself data. subst data.
  unfold VerusResponseData.new.
  apply mem_false_iff in Hself. rewrite Hself.
  unfold VerusResponseData.__init__, VerusResponseData.setattr,
    VerusResponseData.attr.
  rewrite (update_nil _ Hwf).
  split; [reflexivity|].
  split; [apply get_set_same|].
  split.
  - intros k Hk _. now apply get_set_other.
  - intros k Hk. now apply get_set_other.
Qed.

Lemma wf_response_x : wf [("response", VInt 5); ("x", VInt 1)].
Proof.
  unfold wf. cbn.
  repeat constructor; cbn; intuition discriminate.
Defined.

Lemma constructor_clears_response_given :
  exists data,
    VerusResponseData.new [("response", VInt 5); ("x", VInt 1)] = Ok data
    /\ VerusResponseData.attr data "response" = Some VNone
    /\ VerusResponseData.attr data "x" = Some (VInt 1).
Proof.
  destruct (constructor_clears_response [("response", VInt 5); ("x", VInt 1)]
              wf_response_x eq_refl) as (Hnew & Hresp & Hother & _).
  eexists. split; [exact Hnew | split; [exact Hresp|]].
  rewrite Hother; [reflexivity | discriminate | reflexivity].
Defined.

(** X12.  What [__repr__] prints for a record made by the normalizer
    from an object with no key [response]: the class name, each entry
    of the object as [key=repr(value)] in the object's order, and last
    [response=] with the whole mapping printed again. *)
Theorem repr_of_record (self : VerusClient.t) (response entries : dict) :
  Dict.get_or_none "result" response = VDict entries ->
  wf entries ->
  Dict.get "self" entries = None ->
  Dict.get "response" entries = None ->
  exists data,
    _handle_response self response = Ok (Data data)
    /\ VerusResponseData.__repr__ data
       = "VerusResponseData("
           ++ Text.join ", "
                (map shown entries
                 ++ [("response=" ++ Text.repr (VDict entries))%string])%list
           ++ ")".
Proof.
  intros Hres Hwf Hself Hfresh.
  exists (entries ++ [("response", VDict entries)])%list.
  split.
  - rewrite (handle_response_dict _ _ _ Hres).
    unfold VerusResponseData.new.
    apply mem_false_iff in Hself. rewrite Hself. cbn [bind_result].
    unfold VerusResponseData.__init__, VerusResponseData.setattr.
    now rewrite (update_nil _ Hwf), set_set, (set_fresh _ _ _ Hfresh).
  - unfold VerusResponseData.__repr__. cbv zeta.
    fold shown. rewrite map_app.
    reflexivity.
Qed.

Lemma repr_of_record_ab :
  let response := [("result", VDict ab); ("error", VNone)] in
  exists data,
    _handle_response localhost response = Ok (Data data)
    /\ VerusResponseData.__repr__ data
       = "VerusResponseData(a=1, b='x', response={'a': 1, 'b': 'x'})".
Proof.
  intros response.
  destruct (repr_of_record localhost response ab eq_refl wf_ab eq_refl eq_refl)
    as (data & Hrun & Hrepr).
  exists data. split; [exact Hrun|].
  rewrite Hrepr. reflexivity.
Defined.

(** ** Construction, once more *)

Lemma lower_char_idem (c : ascii) :
  Text.lower_char (Text.lower_char c) = Text.lower_char c.
Proof. destruct c as [[] [] [] [] [] [] [] []]; reflexivity. Qed.

Lemma lower_idem (s : string) : Text.lower (Text.lower s) = Text.lower s.
Proof.
  induction s as [|c s IH]; cbn; [reflexivity|].
  now rewrite lower_char_idem, IH.
Qed.

(** X13.  A client keeps its network in lower case, as one of the two
    names, and keeps host and credentials as given; constructing again
    from the four attributes it holds gives the same client. *)
Theorem client_reconstructs (host network rpc_user rpc_password : string)
    (client : VerusClient.t) :
  __init__ host network rpc_user rpc_password = Ok client ->
  (VerusClient.network client = "mainnet"
   \/ VerusClient.network client = "testnet")
  /\ VerusClient.host client = host
  /\ VerusClient.rpc_user client = rpc_user
  /\ VerusClient.rpc_password client = rpc_password
  /\ __init__ (VerusClient.host client) (VerusClient.network client)
              (VerusClient.rpc_user client) (VerusClient.rpc_password client)
     = Ok client.
Proof.
  unfold __init__.
  destruct (String.eqb (Text.lower network) "mainnet") eqn:Emain.
  - cbn. intros [= <-]. cbn.
    rewrite lower_idem, Emain. apply String.eqb_eq in Emain.
    repeat split. now left.
  - destruct (String.eqb (Text.lower network) "testnet") eqn:Etest;
      cbn; [|discriminate].
    intros [= <-]. cbn.
    rewrite lower_idem, Emain, Etest. apply String.eqb_eq in Etest.
    repeat split. now right.
Qed.

Lemma client_reconstructs_testnet :
  exists client,
    __init__ "node.example" "TestNet" "alice" "secret" = Ok client
    /\ VerusClient.network client = "testnet"
    /\ __init__ "node.example" "testnet" "alice" "secret" = Ok client.
Proof.
  eexists. split; [reflexivity|].
  destruct (client_reconstructs "node.example" "TestNet" "alice" "secret" _ eq_refl)
    as (_ & _ & _ & _ & Hagain).
  split; [reflexivity | exact Hagain].
Defined.

(** X14.  Construction looks at the network alone: host and credentials
    are taken as they come, empty ones too, and two constructions with
    the same network either both fail with the same error or give
    clients with the same network, port and currency. *)
Theorem construction_reads_network_only
    (network host rpc_user rpc_password host' rpc_user' rpc_password' : string) :
  match __init__ host network rpc_user rpc_password,
        __init__ host' network rpc_user' rpc_password' with
  | Ok client, Ok client' =>
      VerusClient.network client = VerusClient.network client'
      /\ port client = port client'
      /\ native_currency client = native_currency client'
  | Raise ex, Raise ex' => ex = ex'
  | _, _ => False
  end.
Proof.
  unfold __init__.
  destruct (String.eqb (Text.lower network) "mainnet"); cbn.
  - repeat split.
  - destruct (String.eqb (Text.lower network) "testnet"); cbn.
    + repeat split.
    + reflexivity.
Qed.

(** ** How the entries build their parameters *)

(** X15.  [getrawtransaction] never posts the [verbose] it is given:
    the second parameter is [1] when [verbose] is true in Python's
    sense (and when it is left out) and the empty text otherwise. *)
Theorem getrawtransaction_flag (self : VerusClient.t) (txid : value)
    (verbose : option value) (net : world) :
  exists flag,
    snd (getrawtransaction self txid verbose net)
      = after net (rpc_post self "getrawtransaction" [txid; flag])
    /\ (flag = VInt 1 \/ flag = VStr "")
    /\ (flag = VInt 1 <-> truthy (or_default (VBool true) verbose) = true).
Proof.
  exists (if truthy (or_default (VBool true) verbose) then VInt 1 else VStr "").
  split.
  - change (getrawtransaction self txid verbose)
      with (call self "getrawtransaction"
              [txid; if truthy (or_default (VBool true) verbose)
                     then VInt 1 else VStr ""]).
    apply call_posts.
  - destruct (truthy (or_default (VBool true) verbose)).
    + split; [now left | tauto].
    + split; [now right | split; discriminate].
Qed.

(** X16.  [estimateconversion] posts one parameter, an object with each
    key once: [currency] holds the source currency, [convertto] the
    target and [amount] the amount; [via] is there exactly when the
    argument is true in Python's sense, so that a [via] of [None], an
    empty text or zero is left out. *)
Theorem estimateconversion_object (self : VerusClient.t)
    (amount from_currency to_currency : value) (via : option value)
    (net : world) :
  exists param_obj,
    snd (estimateconversion self amount from_currency to_currency via net)
      = after net (rpc_post self "estimateconversion" [VDict param_obj])
    /\ wf param_obj
    /\ Dict.get "currency" param_obj = Some from_currency
    /\ Dict.get "convertto" param_obj = Some to_currency
    /\ Dict.get "amount" param_obj = Some amount
    /\ Dict.get "via" param_obj
       = (if truthy (or_default VNone via)
          then Some (or_default VNone via) else None).
Proof.
  set (base := [("currency", from_currency); ("convertto", to_currency);
                ("amount", amount)]).
  exists (if truthy (or_default VNone via)
          then Dict.set "via" (or_default VNone via) base else base).
  split.
  - change (estimateconversion self amount from_currency to_currency via)
      with (call self "estimateconversion"
              [VDict (if truthy (or_default VNone via)
                      then Dict.set "via" (or_default VNone via) base
                      else base)]).
    apply call_posts.
  - destruct (truthy (or_default VNone via)); cbn;
      (split; [unfold wf; cbn; repeat constructor; cbn; intuition discriminate
              | repeat split]).
Qed.

(** X17.  [getcurrencystate] keeps its arguments at their positions: the
    currency comes first, the second parameter is [n] or the empty text
    when [n] is left out or [None], and a conversion currency, when one
    is given, is always the third parameter. *)
Theorem getcurrencystate_positions (self : VerusClient.t) (currency : value)
    (n conversiondatacurrency : option value) (net : world) :
  let n' := or_default VNone n in
  let c' := or_default VNone conversiondatacurrency in
  exists params,
    snd (getcurrencystate self currency n conversiondatacurrency net)
      = after net (rpc_post self "getcurrencystate" params)
    /\ nth_error params 0 = Some currency
    /\ nth_error params 1 = Some (if is_none n' then VStr "" else n')
    /\ nth_error params 2 = (if is_none c' then None else Some c')
    /\ nth_error params 3 = None.
Proof.
  intros n' c'.
  exists (let params := [currency] in
          let params :=
            if negb (is_none n') then append params n'
            else append params (VStr "") in
          if negb (is_none c') then append params c' else params).
  split.
  - change (getcurrencystate self currency n conversiondatacurrency)
      with (call self "getcurrencystate"
              (let params := [currency] in
               let params :=
                 if negb (is_none n') then append params n'
                 else append params (VStr "") in
               if negb (is_none c') then append params c' else params)).
    apply call_posts.
  - cbv zeta. destruct (is_none n'), (is_none c'); cbn; repeat split.
Qed.

(** X18.  [help] and [setgenerate] test their optional argument against
    [None] and nothing else: it is posted whenever it is given and not
    [None], a zero or an empty text too, and left out otherwise. *)
Theorem optional_sent_unless_none (self : VerusClient.t)
    (generate : value) (arg : option value) (net : world) :
  let arg' := or_default VNone arg in
  snd (help self arg net)
    = after net (rpc_post self "help" (if is_none arg' then [] else [arg']))
  /\ snd (setgenerate self generate arg net)
     = after net (rpc_post self "setgenerate"
                    (if is_none arg' then [generate] else [generate; arg'])).
Proof.
  intros arg'. split.
  - change (help self arg)
      with (call self "help" (if negb (is_none arg') then [arg'] else [])).
    rewrite call_posts. now destruct (is_none arg').
  - change (setgenerate self generate arg)
      with (call self "setgenerate"
              (if negb (is_none arg') then append [generate] arg'
               else [generate])).
    rewrite call_posts. now destruct (is_none arg').
Qed.
